(** * smart-home-agents: the cleaning agent, its state and its errors

    A shallow embedding of
      - [src/domain/exceptions.py]   (the exception classes),
      - [src/domain/models.py]       (Room, the enum-typed CleaningState),
      - [src/agents/cleaning_agent.py] (the text-typed CleaningState, the
        agent-module LowBatteryError, AdvancedCleaningAgent),
      - [src/infrastructure/logging.py] (PerformanceLogger).

    Python objects carry attributes of any value, so an instance is a record
    of [pyval]s; a method is a function from the object (and its
    collaborator) to an outcome and the object after the call, since a
    raise does not undo the assignments made before it. *)

From Stdlib Require Import ZArith List String Ascii Bool Lia Floats.
Import ListNotations.
Local Open Scope string_scope.

(* ================================================================== *)
(** ** Python floats (binary64) and their comparisons *)

Module PyFloat.

(** [a < b], [a >= b] and [a == b] on two floats, as the interpreter
    evaluates them: every comparison with NaN is False. *)
Definition lt (a b : float) : bool := (a <? b)%float.
Definition ge (a b : float) : bool := (b <=? a)%float.
Definition eq (a b : float) : bool := (a =? b)%float.

Definition is_nan (a : float) : bool := PrimFloat.is_nan a.

(** The literal [20] of the guard; an int, which a float comparison
    reads at its exact value. *)
Definition twenty : float := 20%float.
Definition hundred : float := 100%float.

End PyFloat.

(* ================================================================== *)
(** ** Exception classes *)

(** The classes of [src/domain/exceptions.py], the [LowBatteryError] that
    [src/agents/cleaning_agent.py] defines for itself, and the classes of
    the interpreter and of pydantic that the embedded code can meet. *)
Inductive ExcClass : Type :=
  | Exception
  | TypeError
  | ValueError
  | OSError
  | ConnectionError
  | ValidationError              (* pydantic's *)
  | SmartHomeError               (* domain/exceptions.py:1 *)
  | domain_LowBatteryError       (* domain/exceptions.py:5 *)
  | SensorError                  (* domain/exceptions.py:11 *)
  | NavigationError              (* domain/exceptions.py:15 *)
  | agents_LowBatteryError.      (* agents/cleaning_agent.py:9 *)

Definition ExcClass_eqb (c d : ExcClass) : bool :=
  match c, d with
  | Exception, Exception | TypeError, TypeError | ValueError, ValueError
  | OSError, OSError | ConnectionError, ConnectionError
  | ValidationError, ValidationError | SmartHomeError, SmartHomeError
  | domain_LowBatteryError, domain_LowBatteryError
  | SensorError, SensorError | NavigationError, NavigationError
  | agents_LowBatteryError, agents_LowBatteryError => true
  | _, _ => false
  end.

(** The class named in the parentheses of each [class] statement. *)
Definition base (c : ExcClass) : option ExcClass :=
  match c with
  | Exception => None
  | TypeError => Some Exception
  | ValueError => Some Exception
  | OSError => Some Exception
  | ConnectionError => Some OSError
  | ValidationError => Some ValueError
  | SmartHomeError => Some Exception
  | domain_LowBatteryError => Some SmartHomeError
  | SensorError => Some SmartHomeError
  | NavigationError => Some SmartHomeError
  | agents_LowBatteryError => Some Exception
  end.

(** The chain of classes from [c] upwards (its method resolution order,
    cut at [Exception]). *)
Fixpoint ancestors (fuel : nat) (c : ExcClass) : list ExcClass :=
  match fuel with
  | O => [c]
  | S n => c :: match base c with
                | None => []
                | Some b => ancestors n b
                end
  end.

Definition mro (c : ExcClass) : list ExcClass := ancestors 11 c.

Definition issubclass (c d : ExcClass) : bool :=
  existsb (ExcClass_eqb d) (mro c).

(** An exception object: its class and the arguments it was built with. *)
Record exc : Type := mkExc { exc_class : ExcClass; exc_args : list string }.

(** [str(e)] for an exception built with at most one text argument. *)
Definition exc_str (e : exc) : option string :=
  match exc_args e with
  | [] => Some ""
  | [m] => Some m
  | _ => None
  end.

(** [except cls:] catches [e] when [e] is an instance of [cls]. *)
Definition catches (cls : ExcClass) (e : exc) : bool :=
  issubclass (exc_class e) cls.

(** [domain.exceptions.LowBatteryError.__init__], whose message has a
    default. *)
Definition domain_LowBatteryError_new (message : option string) : exc :=
  let message := match message with
                 | Some m => m
                 | None => "Battery level below 20%"
                 end in
  mkExc domain_LowBatteryError [message].

(* ================================================================== *)
(** ** Outcomes and stateful computations *)

Inductive outcome (A : Type) : Type :=
  | Return (v : A)
  | Raise (e : exc).
Arguments Return {A} v.
Arguments Raise {A} e.

(** A computation over a mutable world [W]: the world after the call is
    given whether the call returned or raised. *)
Definition M (W A : Type) : Type := W -> outcome A * W.

Definition ret {W A} (v : A) : M W A := fun w => (Return v, w).
Definition raise {W A} (e : exc) : M W A := fun w => (Raise e, w).
Definition get {W} : M W W := fun w => (Return w, w).
Definition bind {W A B} (m : M W A) (k : A -> M W B) : M W B :=
  fun w => match m w with
           | (Return v, w') => k v w'
           | (Raise e, w') => (Raise e, w')
           end.

Notation "x <- m ;; k" := (bind m (fun x => k))
  (at level 61, m at next level, right associativity).
Notation "m ;;; k" := (bind m (fun _ => k))
  (at level 61, right associativity).

(** [try: body  except cls: handler(e)]. *)
Definition try_except {W A} (body : M W A) (cls : ExcClass)
    (handler : exc -> M W A) : M W A :=
  fun w => match body w with
           | (Return v, w') => (Return v, w')
           | (Raise e, w') =>
               if catches cls e then handler e w' else (Raise e, w')
           end.

Definition raises {A} (o : outcome A) (cls : ExcClass) : Prop :=
  exists e, o = Raise e /\ exc_class e = cls.

Definition succeeds {A} (o : outcome A) : Prop :=
  exists v, o = Return v.

(* ================================================================== *)
(** ** Values *)

(** [domain.models.Room], a [str]-valued enumeration. *)
Inductive Room : Type := LIVING | KITCHEN | BEDROOM | BATHROOM.

Definition Room_value (r : Room) : string :=
  match r with
  | LIVING => "living_room"
  | KITCHEN => "kitchen"
  | BEDROOM => "bedroom"
  | BATHROOM => "bathroom"
  end.

Definition Room_members : list Room := [LIVING; KITCHEN; BEDROOM; BATHROOM].

Definition Room_eqb (a b : Room) : bool :=
  match a, b with
  | LIVING, LIVING | KITCHEN, KITCHEN
  | BEDROOM, BEDROOM | BATHROOM, BATHROOM => true
  | _, _ => false
  end.

(** [Room(s)]: the member whose value is [s], if any. *)
Definition Room_of_value (s : string) : option Room :=
  find (fun r => String.eqb (Room_value r) s) Room_members.

(** The values an attribute or an argument can hold. *)
#[local] Set Warnings "-register-all".
Inductive pyval : Type :=
  | PyNone
  | PyBool (b : bool)
  | PyInt (z : Z)
  | PyFloat (f : float)
  | PyStr (s : string)
  | PyRoom (r : Room)
  | PyList (l : list pyval)
  | PyDict (d : list (pyval * pyval)).

Definition type_name (v : pyval) : string :=
  match v with
  | PyNone => "NoneType"
  | PyBool _ => "bool"
  | PyInt _ => "int"
  | PyFloat _ => "float"
  | PyStr _ => "str"
  | PyRoom _ => "Room"
  | PyList _ => "list"
  | PyDict _ => "dict"
  end.

(** [float(n)] for an int literal; exact for the sizes up to 2^53. *)
Definition float_of_int (n : Z) : float :=
  if (n <? 0)%Z
  then PrimFloat.opp (PrimFloat.of_uint63 (Uint63.of_Z (- n)))
  else PrimFloat.of_uint63 (Uint63.of_Z n).

(** [v < n] for an int literal [n]: numbers compare by value, a [bool] is
    the int 0 or 1, anything else (text, a [Room], which is a [str], [None],
    containers) does not order against an int. *)
Definition py_lt_int (v : pyval) (n : Z) : outcome bool :=
  match v with
  | PyFloat x => Return (PyFloat.lt x (float_of_int n))
  | PyInt z => Return (z <? n)%Z
  | PyBool b => Return ((if b then 1 else 0) <? n)%Z
  | _ => Raise (mkExc TypeError
                  ["'<' not supported between instances of '"
                     ++ type_name v ++ "' and 'int'"])
  end.


(* ================================================================== *)
(** ** pydantic field validation

    Both [CleaningState] classes derive from pydantic's [BaseModel] with no
    model configuration: the arguments of a construction are validated
    against the annotations, defaults are taken as they are, and an
    assignment to a field stores the value unvalidated.  What follows is
    the validation of the annotations the two models use.  Arguments of the
    positions annotated [float], [str], [list[str]] are taken at that type
    (every such value is accepted as it is); the positions annotated [Room]
    take any value, since that validation is a lookup among the members. *)
Module pydantic.

(** A position annotated [Room]: a member, or the value of a member. *)
Definition validate_Room (v : pyval) : option Room :=
  match v with
  | PyRoom r => Some r
  | PyStr s => Room_of_value s
  | _ => None
  end.

Fixpoint validate_list_Room (l : list pyval) : option (list Room) :=
  match l with
  | [] => Some []
  | v :: l' =>
      match validate_Room v, validate_list_Room l' with
      | Some r, Some rs => Some (r :: rs)
      | _, _ => None
      end
  end.

(** [d[k] = v] on a dict kept in insertion order. *)
Fixpoint dict_set (k : Room) (v : string) (d : list (Room * string))
  : list (Room * string) :=
  match d with
  | [] => [(k, v)]
  | (k', v') :: d' =>
      if Room_eqb k' k then (k', v) :: d' else (k', v') :: dict_set k v d'
  end.

(** A position annotated [dict[Room, str]]. *)
Fixpoint validate_dict_Room_str (acc : list (Room * string))
    (d : list (pyval * string)) : option (list (Room * string)) :=
  match d with
  | [] => Some acc
  | (k, v) :: d' =>
      match validate_Room k with
      | Some r => validate_dict_Room_str (dict_set r v acc) d'
      | None => None
      end
  end.

(** The error of a failed construction.  pydantic lists the fields in
    error; the arguments kept here are their names, in declaration order
    (the wording of the report is not modelled). *)
Definition validation_error (fields : list string) : exc :=
  mkExc ValidationError fields.

(** One field of a construction: its name and whether it validated. *)
Definition field_error {A} (name : string) (r : option A) : list string :=
  match r with
  | Some _ => []
  | None => [name]
  end.

End pydantic.

(* ================================================================== *)
(** ** [src/domain/models.py] *)

Module domain.
Import pydantic.

(** [CleaningState]: [battery_level: float], [current_room: Room],
    [cleaning_path: list[Room]], [last_cleaned: dict[Room, str] = {}]. *)
Record CleaningState : Type := mkCleaningState {
  battery_level : pyval;
  current_room : pyval;
  cleaning_path : pyval;
  last_cleaned : pyval
}.

(** A required field: absent, or present and validated. *)
Definition required {A B} (arg : option A) (validate : A -> option B)
  : option B :=
  match arg with
  | Some v => validate v
  | None => None
  end.

(** [CleaningState(...)], each argument given by keyword or left out. *)
Definition CleaningState_new
    (battery_level_arg : option float)
    (current_room_arg : option pyval)
    (cleaning_path_arg : option (list pyval))
    (last_cleaned_arg : option (list (pyval * string)))
  : outcome CleaningState :=
  let b := required battery_level_arg (fun x => Some x) in
  let r := required current_room_arg validate_Room in
  let p := required cleaning_path_arg validate_list_Room in
  let d := match last_cleaned_arg with
           | Some d => validate_dict_Room_str [] d
           | None => Some []
           end in
  match b, r, p, d with
  | Some b, Some r, Some p, Some d =>
      Return (mkCleaningState
                (PyFloat b) (PyRoom r) (PyList (map PyRoom p))
                (PyDict (map (fun kv => (PyRoom (fst kv), PyStr (snd kv))) d)))
  | _, _, _, _ =>
      Raise (validation_error
               (field_error "battery_level" b ++ field_error "current_room" r
                ++ field_error "cleaning_path" p
                ++ field_error "last_cleaned" d))
  end.

(** [state.current_room = v] and [state.battery_level = v]: the model has
    no [validate_assignment], the value is stored as it is. *)
Definition set_current_room (v : pyval) : M CleaningState unit :=
  fun s => (Return tt,
            mkCleaningState (battery_level s) v (cleaning_path s)
              (last_cleaned s)).

Definition set_battery_level (v : pyval) : M CleaningState unit :=
  fun s => (Return tt,
            mkCleaningState v (current_room s) (cleaning_path s)
              (last_cleaned s)).

End domain.

(* ================================================================== *)
(** ** [src/agents/cleaning_agent.py] *)

Module agents.

(** [CleaningState]: [battery_level: float = 100.0],
    [current_room: str = "living_room"], [cleaning_path: list[str] = []]. *)
Record CleaningState : Type := mkCleaningState {
  battery_level : pyval;
  current_room : pyval;
  cleaning_path : pyval
}.

Definition default {A} (arg : option A) (d : A) : A :=
  match arg with
  | Some v => v
  | None => d
  end.

(** [CleaningState(...)], each argument given by keyword or left out. *)
Definition CleaningState_new
    (battery_level_arg : option float)
    (current_room_arg : option string)
    (cleaning_path_arg : option (list string))
  : outcome CleaningState :=
  Return (mkCleaningState
            (PyFloat (default battery_level_arg PyFloat.hundred))
            (PyStr (default current_room_arg "living_room"))
            (PyList (map PyStr (default cleaning_path_arg [])))).

(** Assignments to the fields: stored as they are. *)
Definition set_battery_level (v : pyval) : M CleaningState unit :=
  fun s => (Return tt, mkCleaningState v (current_room s) (cleaning_path s)).

Definition set_current_room (v : pyval) : M CleaningState unit :=
  fun s => (Return tt, mkCleaningState (battery_level s) v (cleaning_path s)).

(** [LowBatteryError(message)]: a plain [Exception] subclass. *)
Definition LowBatteryError_new (message : string) : exc :=
  mkExc agents_LowBatteryError [message].

(** The IoT collaborator: whatever object is handed to the agent, used
    through two accessors that answer or raise, and that may change the
    collaborator itself. *)
Class IoTClient (I : Type) : Type := {
  get_battery_level : M I pyval;
  get_current_room : M I pyval
}.

(** [AdvancedCleaningAgent]: [self.state], [self.iot]. *)
Record AdvancedCleaningAgent (I : Type) : Type := mkAgent {
  state : CleaningState;
  iot : I
}.
Arguments mkAgent {I} _ _.
Arguments state {I} _.
Arguments iot {I} _.

Section Agent.
Context {I : Type} `{IoTClient I}.

(** A computation on [self.state], and one on [self.iot]. *)
Definition on_state {A} (m : M CleaningState A)
  : M (AdvancedCleaningAgent I) A :=
  fun a => let (o, s') := m (state a) in (o, mkAgent s' (iot a)).

Definition on_iot {A} (m : M I A) : M (AdvancedCleaningAgent I) A :=
  fun a => let (o, i') := m (iot a) in (o, mkAgent (state a) i').

(** Evaluating an expression that may raise and changes nothing. *)
Definition eval {W A} (o : outcome A) : M W A := fun w => (o, w).

(** [__init__(self, iot_client)]. *)
Definition init (iot_client : I) : outcome (AdvancedCleaningAgent I) :=
  match CleaningState_new None None None with
  | Return s => Return (mkAgent s iot_client)
  | Raise e => Raise e
  end.

(** [check_battery(self)]:
    [if self.state.battery_level < 20: raise LowBatteryError(...)]. *)
Definition check_battery : M (AdvancedCleaningAgent I) unit :=
  self <- get ;;
  low <- eval (py_lt_int (battery_level (state self)) 20) ;;
  if low : bool
  then raise (LowBatteryError_new "Returning to dock")
  else ret tt.

(** [update_sensors(self)]: two assignments, each of an accessor's
    answer, in this order. *)
Definition update_sensors : M (AdvancedCleaningAgent I) unit :=
  b <- on_iot get_battery_level ;;
  on_state (set_battery_level b) ;;;
  r <- on_iot get_current_room ;;
  on_state (set_current_room r).

End Agent.

(** A collaborator with canned answers, one per accessor. *)
Record StubIoT : Type := mkStub {
  battery_reply : outcome pyval;
  room_reply : outcome pyval
}.

#[export] Instance StubIoT_client : IoTClient StubIoT := {
  get_battery_level := fun i => (battery_reply i, i);
  get_current_room := fun i => (room_reply i, i)
}.

End agents.

(* ================================================================== *)
(** ** [src/infrastructure/logging.py] *)

Module infrastructure.

(** The logger handed to [PerformanceLogger]: used through [info] only. *)
Class Logger (L : Type) : Type := {
  info : string -> M L unit
}.

(** [PerformanceLogger]: [self.logger]. *)
Record PerformanceLogger (L : Type) : Type := mkPerformanceLogger {
  logger : L
}.
Arguments mkPerformanceLogger {L} _.
Arguments logger {L} _.

Section PerformanceLogger.
Context {L : Type} `{Logger L}.

(** The text an f-string puts for [{value}]: [format(value, "")], the
    interpreter's own, taken as given. *)
Variable format_value : pyval -> string.

Definition on_logger {A} (m : M L A) : M (PerformanceLogger L) A :=
  fun p => let (o, l') := m (logger p) in (o, mkPerformanceLogger l').

(** [__init__(self, logger)]. *)
Definition init (logger : L) : PerformanceLogger L :=
  mkPerformanceLogger logger.

(** [log_metric(self, name, value)]:
    [self.logger.info(f"METRIC|{name}|{value}")]. *)
Definition log_metric (name : string) (value : pyval)
  : M (PerformanceLogger L) unit :=
  on_logger (info ("METRIC|" ++ name ++ "|" ++ format_value value)).

End PerformanceLogger.

(** A logger that keeps what it is given, in order. *)
Inductive Level : Type := DEBUG | INFO | WARNING | ERROR | CRITICAL.

Record LogRecord : Type := mkLogRecord {
  levelname : Level;
  message : string
}.

Definition RecordingLogger : Type := list LogRecord.

#[export] Instance RecordingLogger_logger : Logger RecordingLogger := {
  info := fun msg records => (Return tt, (records ++ [mkLogRecord INFO msg])%list)
}.

End infrastructure.

(* ================================================================== *)
(** ** Sample objects *)

Module samples.
Import agents.

(** A collaborator that answers [None] to both accessors. *)
Definition silent : StubIoT := mkStub (Return PyNone) (Return PyNone).

(** The agent after [agent.state.battery_level = v] on a new agent. *)
Definition agent_with_battery (v : pyval) : AdvancedCleaningAgent StubIoT :=
  mkAgent (mkCleaningState v (PyStr "living_room") (PyList [])) silent.

(** A collaborator whose battery reading arrives and whose room reading
    fails on the connection. *)
Definition room_unreachable : StubIoT :=
  mkStub (Return (PyFloat 45))
         (Raise (mkExc ConnectionError ["sensor unreachable"])).

(** A collaborator reporting 45.0 and the kitchen. *)
Definition reporting_kitchen : StubIoT :=
  mkStub (Return (PyFloat 45)) (Return (PyStr "kitchen")).

End samples.

(* ================================================================== *)
(** ** Loops and texts *)

(** [for x in xs: body(x)]: the first raise ends the loop. *)
Fixpoint for_each {W A} (xs : list A) (body : A -> M W unit) : M W unit :=
  match xs with
  | [] => ret tt
  | x :: xs' => body x ;;; for_each xs' body
  end.

(** ["|" in s]. *)
Fixpoint contains_pipe (s : string) : bool :=
  match s with
  | EmptyString => false
  | String c s' => Ascii.eqb c "|"%char || contains_pipe s'
  end.

(** A value that orders against an int: a float, an int or a bool. *)
Definition is_number (v : pyval) : bool :=
  match v with
  | PyFloat _ | PyInt _ | PyBool _ => true
  | _ => false
  end.

(* ================================================================== *)
(** * Properties *)

(** ** Float comparison *)

Section FloatOrder.

Lemma SFcompare_antisym (x y : spec_float) :
  SFcompare y x = option_map CompOpp (SFcompare x y).
Proof.
  destruct x as [sx | sx | | sx mx ex], y as [sy | sy | | sy my ey];
    simpl; try reflexivity;
    try (destruct sx; reflexivity); try (destruct sy; reflexivity);
    try (destruct sx, sy; reflexivity).
  destruct sx, sy; simpl; try reflexivity;
    rewrite (Z.compare_antisym ex ey);
    destruct (Z.compare ex ey); simpl; try reflexivity;
    rewrite (Pos.compare_cont_antisym mx my Eq); reflexivity.
Qed.

Lemma SFcompare_refl (x : spec_float) :
  x <> S754_nan -> SFcompare x x = Some Eq.
Proof.
  destruct x as [s | s | | s m e]; simpl; intros Hx;
    try reflexivity; try (destruct s; reflexivity);
    try (exfalso; apply Hx; reflexivity).
  destruct s; rewrite Z.compare_refl, Pos.compare_cont_refl; reflexivity.
Qed.

Lemma SFcompare_None (x y : spec_float) :
  SFcompare x y = None <-> x = S754_nan \/ y = S754_nan.
Proof.
  split.
  - destruct x as [sx | sx | | sx mx ex], y as [sy | sy | | sy my ey];
      simpl; intros Hc; try discriminate Hc; auto.
  - intros [-> | ->]; [reflexivity | destruct x; reflexivity].
Qed.

(** [is_nan] says that the float is the NaN of the specification. *)
Lemma is_nan_spec (a : float) :
  PyFloat.is_nan a = true <-> Prim2SF a = S754_nan.
Proof.
  unfold PyFloat.is_nan, PrimFloat.is_nan.
  rewrite eqb_spec. unfold SFeqb. split.
  - intros Hn. destruct (Prim2SF a) eqn:Ea; try reflexivity;
      rewrite SFcompare_refl in Hn by discriminate; discriminate Hn.
  - intros ->. reflexivity.
Qed.

Lemma lt_nan (a c : float) :
  PyFloat.is_nan a = true -> PyFloat.lt a c = false.
Proof.
  intros Ha. apply is_nan_spec in Ha.
  unfold PyFloat.lt. rewrite ltb_spec, Ha. reflexivity.
Qed.

(** [a >= b] is the negation of [a < b] exactly when neither is NaN. *)
Lemma ge_lt (a b : float) :
  PyFloat.is_nan b = false ->
  PyFloat.ge a b = negb (PyFloat.lt a b) && negb (PyFloat.is_nan a).
Proof.
  intros Hb. unfold PyFloat.ge, PyFloat.lt.
  rewrite leb_spec, ltb_spec. unfold SFleb, SFltb.
  rewrite (SFcompare_antisym (Prim2SF a) (Prim2SF b)).
  destruct (PyFloat.is_nan a) eqn:Ha.
  - apply is_nan_spec in Ha. rewrite Ha. reflexivity.
  - destruct (SFcompare (Prim2SF a) (Prim2SF b)) as [c |] eqn:Ec.
    + destruct c; reflexivity.
    + apply SFcompare_None in Ec. destruct Ec as [Ea | Eb].
      * apply is_nan_spec in Ea. congruence.
      * apply is_nan_spec in Eb. congruence.
Qed.

(** Equal floats (by [==]) stand in the same order to any third. *)
Lemma lt_eq_compat (a b c : float) :
  PyFloat.eq a b = true -> PyFloat.lt a c = PyFloat.lt b c.
Proof.
  unfold PyFloat.eq, PyFloat.lt.
  rewrite eqb_spec, !ltb_spec. unfold SFeqb, SFltb.
  destruct (Prim2SF a) as [sa | sa | | sa ma ea],
           (Prim2SF b) as [sb | sb | | sb mb eb];
    simpl; try discriminate; try reflexivity;
    try (destruct sa, sb; simpl; try discriminate; reflexivity);
    try (destruct sa; discriminate); try (destruct sb; discriminate).
  destruct sa, sb; simpl; try discriminate;
    destruct (Z.compare ea eb) eqn:Ee; try discriminate;
    apply Z.compare_eq in Ee; subst eb; intros Hm.
  - destruct (Pos.compare_cont Eq ma mb) eqn:Em; try discriminate Hm.
    apply Pos.compare_eq in Em. subst mb. reflexivity.
  - destruct (Pos.compare_cont Eq ma mb) eqn:Em; try discriminate Hm.
    apply Pos.compare_eq in Em. subst mb. reflexivity.
Qed.

End FloatOrder.

(** ** Exception classes *)

Lemma issubclass_refl (c : ExcClass) : issubclass c c = true.
Proof. destruct c; reflexivity. Qed.

Lemma issubclass_base (c b d : ExcClass) :
  base c = Some b -> issubclass b d = true -> issubclass c d = true.
Proof. destruct c, d; simpl; intros [= <-]; intros Hs; try reflexivity;
         discriminate Hs. Qed.

Lemma issubclass_Exception (c : ExcClass) : issubclass c Exception = true.
Proof. destruct c; reflexivity. Qed.

(** ** The battery guard *)

Module guard.
Import agents.

Section Guard.
Context {I : Type} `{IoTClient I}.

(** The guard, case by case on what the comparison gives. *)
Lemma check_battery_cases (self : AdvancedCleaningAgent I) :
  check_battery self =
  match py_lt_int (battery_level (state self)) 20 with
  | Return true => (Raise (LowBatteryError_new "Returning to dock"), self)
  | Return false => (Return tt, self)
  | Raise e => (Raise e, self)
  end.
Proof.
  unfold check_battery, bind, get, eval, raise, ret.
  destruct (py_lt_int (battery_level (state self)) 20) as [[|] | e];
    reflexivity.
Qed.

(** The guard reads; it assigns nothing, whether it returns or raises. *)
Lemma check_battery_frame (self : AdvancedCleaningAgent I) :
  snd (check_battery self) = self.
Proof.
  rewrite check_battery_cases.
  destruct (py_lt_int (battery_level (state self)) 20) as [[|] | e];
    reflexivity.
Qed.

Lemma py_lt_int_float_20 (b : float) :
  py_lt_int (PyFloat b) 20 = Return (PyFloat.lt b PyFloat.twenty).
Proof. reflexivity. Qed.

Lemma check_battery_float (self : AdvancedCleaningAgent I) (b : float) :
  battery_level (state self) = PyFloat b ->
  check_battery self =
  if PyFloat.lt b PyFloat.twenty
  then (Raise (LowBatteryError_new "Returning to dock"), self)
  else (Return tt, self).
Proof.
  intros Hb. rewrite check_battery_cases, Hb, py_lt_int_float_20.
  destruct (PyFloat.lt b PyFloat.twenty); reflexivity.
Qed.

End Guard.

(** The outcome is a function of [battery_level] alone. *)
Lemma check_battery_reads_battery_only
    {I J : Type} `{IoTClient I} `{IoTClient J}
    (a1 : AdvancedCleaningAgent I) (a2 : AdvancedCleaningAgent J) :
  battery_level (state a1) = battery_level (state a2) ->
  fst (check_battery a1) = fst (check_battery a2).
Proof.
  intros Hb.
  rewrite (check_battery_cases a1), (check_battery_cases a2), Hb.
  destruct (py_lt_int (battery_level (state a2)) 20) as [[|] | e];
    reflexivity.
Qed.

(** A value that is no number does not order against 20: the guard
    raises the interpreter's [TypeError], not a battery error. *)
Example check_battery_text :
  fst (check_battery
         (mkAgent (mkCleaningState (PyStr "full") (PyStr "kitchen")
                     (PyList []))
            (mkStub (Return PyNone) (Return PyNone))))
  = Raise (mkExc TypeError
             ["'<' not supported between instances of 'str' and 'int'"]).
Proof. reflexivity. Qed.

End guard.

(** ** The claims on the battery guard *)

Module guard_claims.
Import agents guard samples.

(** C1, as the code has it.  For every agent whose battery level is a
    float [b]: the guard raises the agent-module [LowBatteryError] exactly
    when [b < 20]; it returns exactly when [b >= 20] or [b] is NaN (the one
    float for which neither [b < 20] nor [b >= 20]); at [b == 20.0] it
    returns; and, returning or raising, it leaves the agent as it was. *)
Theorem check_battery_threshold
    {I : Type} `{IoTClient I} (self : AdvancedCleaningAgent I) (b : float) :
  battery_level (state self) = PyFloat b ->
  (raises (fst (check_battery self)) agents_LowBatteryError
     <-> PyFloat.lt b PyFloat.twenty = true)
  /\ (succeeds (fst (check_battery self))
        <-> PyFloat.ge b PyFloat.twenty = true \/ PyFloat.is_nan b = true)
  /\ (PyFloat.eq b PyFloat.twenty = true
        -> succeeds (fst (check_battery self)))
  /\ snd (check_battery self) = self.
Proof.
  intros Hb. rewrite (check_battery_float self b Hb).
  assert (Heq : PyFloat.eq b PyFloat.twenty = true ->
                PyFloat.lt b PyFloat.twenty = false).
  { intros He. rewrite (lt_eq_compat _ _ PyFloat.twenty He). reflexivity. }
  rewrite (ge_lt b PyFloat.twenty) by reflexivity.
  destruct (PyFloat.lt b PyFloat.twenty) eqn:Hlt; simpl.
  - repeat split.
    + exists (LowBatteryError_new "Returning to dock"). split; reflexivity.
    + intros [v Hv]. discriminate Hv.
    + intros [Hf | Hn]; [discriminate Hf |].
      rewrite (lt_nan b PyFloat.twenty Hn) in Hlt. discriminate Hlt.
    + intros He. apply Heq in He. discriminate He.
  - repeat split.
    + intros [e [He _]]. discriminate He.
    + intros Hf. discriminate Hf.
    + intros _. destruct (PyFloat.is_nan b); [right | left]; reflexivity.
    + intros _. exists tt. reflexivity.
    + intros _. exists tt. reflexivity.
Qed.

Lemma check_battery_threshold_witness :
  battery_level (state (agent_with_battery (PyFloat 50))) = PyFloat 50
  /\ succeeds (fst (check_battery (agent_with_battery (PyFloat 50)))).
Proof.
  split; [reflexivity |].
  destruct (check_battery_threshold (agent_with_battery (PyFloat 50)) 50
              eq_refl) as [_ [[_ Hret] _]].
  apply Hret. left. reflexivity.
Defined.

(** C1, as stated, fails at NaN: the guard returns although [b >= 20] is
    false there (and so is [b < 20]). *)
Lemma check_battery_nan_passes :
  succeeds (fst (check_battery (agent_with_battery (PyFloat PrimFloat.nan))))
  /\ PyFloat.ge PrimFloat.nan PyFloat.twenty = false
  /\ PyFloat.lt PrimFloat.nan PyFloat.twenty = false.
Proof. repeat split. exists tt. reflexivity. Qed.

(** C6.  Whenever the battery level is below 20, the guard raises a
    [LowBatteryError] built with the one argument "Returning to dock",
    which is also its text. *)
Theorem check_battery_low_message
    {I : Type} `{IoTClient I} (self : AdvancedCleaningAgent I) :
  py_lt_int (battery_level (state self)) 20 = Return true ->
  exists e,
    check_battery self = (Raise e, self)
    /\ exc_class e = agents_LowBatteryError
    /\ exc_args e = ["Returning to dock"]
    /\ exc_str e = Some "Returning to dock".
Proof.
  intros Hlow. exists (LowBatteryError_new "Returning to dock").
  rewrite check_battery_cases, Hlow. repeat split.
Qed.

Lemma check_battery_low_message_witness :
  py_lt_int (battery_level (state (agent_with_battery (PyFloat 15)))) 20
    = Return true
  /\ exists e,
       check_battery (agent_with_battery (PyFloat 15))
         = (Raise e, agent_with_battery (PyFloat 15))
       /\ exc_class e = agents_LowBatteryError
       /\ exc_args e = ["Returning to dock"]
       /\ exc_str e = Some "Returning to dock".
Proof.
  split; [reflexivity |].
  apply (check_battery_low_message (agent_with_battery (PyFloat 15))).
  reflexivity.
Defined.

(** C9.  On every run where the battery level is below 20, the exception
    the guard raises is of the agent-module [LowBatteryError]: a class
    whose base is [Exception], distinct from the domain-module
    [LowBatteryError] and no subclass of [SmartHomeError]; so an
    [except SmartHomeError] or an [except] of the domain
    [LowBatteryError] around the guard lets it through, whatever the
    handler. *)
Theorem check_battery_error_outside_domain_hierarchy
    {I : Type} `{IoTClient I} (self : AdvancedCleaningAgent I) :
  py_lt_int (battery_level (state self)) 20 = Return true ->
  exists e,
    check_battery self = (Raise e, self)
    /\ exc_class e = agents_LowBatteryError
    /\ base agents_LowBatteryError = Some Exception
    /\ agents_LowBatteryError <> domain_LowBatteryError
    /\ issubclass agents_LowBatteryError SmartHomeError = false
    /\ issubclass agents_LowBatteryError domain_LowBatteryError = false
    /\ catches SmartHomeError e = false
    /\ catches domain_LowBatteryError e = false
    /\ (forall handler,
          try_except check_battery SmartHomeError handler self
            = (Raise e, self))
    /\ (forall handler,
          try_except check_battery domain_LowBatteryError handler self
            = (Raise e, self)).
Proof.
  intros Hlow. exists (LowBatteryError_new "Returning to dock").
  assert (Hrun : check_battery self
                 = (Raise (LowBatteryError_new "Returning to dock"), self)).
  { rewrite check_battery_cases, Hlow. reflexivity. }
  repeat split; try assumption; try discriminate;
    intros handler; unfold try_except; rewrite Hrun; reflexivity.
Qed.

Lemma check_battery_error_outside_domain_hierarchy_witness :
  py_lt_int (battery_level (state (agent_with_battery (PyFloat 5)))) 20
    = Return true
  /\ exists e,
       check_battery (agent_with_battery (PyFloat 5))
         = (Raise e, agent_with_battery (PyFloat 5))
       /\ catches SmartHomeError e = false.
Proof.
  split; [reflexivity |].
  destruct (check_battery_error_outside_domain_hierarchy
              (agent_with_battery (PyFloat 5)) eq_refl)
    as [e [Hrun [_ [_ [_ [_ [_ [Hc _]]]]]]]].
  exists e. split; assumption.
Defined.



End guard_claims.

(** ** The claims on the sensor refresh *)

Module sensor_claims.
Import agents samples.

Section Refresh.
Context {I : Type} `{IoTClient I}.

(** What [update_sensors] does, by the outcome of each accessor. *)
Lemma update_sensors_cases (self : AdvancedCleaningAgent I) :
  update_sensors self =
  match get_battery_level (iot self) with
  | (Raise e, i1) => (Raise e, mkAgent (state self) i1)
  | (Return b, i1) =>
      let s1 := mkCleaningState b (current_room (state self))
                  (cleaning_path (state self)) in
      match get_current_room i1 with
      | (Raise e, i2) => (Raise e, mkAgent s1 i2)
      | (Return r, i2) =>
          (Return tt, mkAgent (mkCleaningState b r (cleaning_path s1)) i2)
      end
  end.
Proof.
  unfold update_sensors, bind, on_iot, on_state, set_battery_level,
    set_current_room; simpl.
  destruct (get_battery_level (iot self)) as [[b | e] i1]; simpl;
    [| reflexivity].
  destruct (get_current_room i1) as [[r | e] i2]; reflexivity.
Qed.

End Refresh.

(** C4.  When the accessors answer [b] and then [r], the refresh returns
    and the state holds exactly [b] as battery level and [r] as current
    room, with the cleaning path (the only other field) as it was. *)
Theorem update_sensors_overwrites
    {I : Type} `{IoTClient I} (self : AdvancedCleaningAgent I)
    (b r : pyval) (i1 i2 : I) :
  get_battery_level (iot self) = (Return b, i1) ->
  get_current_room i1 = (Return r, i2) ->
  update_sensors self
    = (Return tt,
       mkAgent (mkCleaningState b r (cleaning_path (state self))) i2)
  /\ battery_level (state (snd (update_sensors self))) = b
  /\ current_room (state (snd (update_sensors self))) = r
  /\ cleaning_path (state (snd (update_sensors self)))
     = cleaning_path (state self).
Proof.
  intros Hb Hr. rewrite update_sensors_cases, Hb; simpl. rewrite Hr; simpl.
  repeat split.
Qed.

Lemma update_sensors_overwrites_witness :
  get_battery_level reporting_kitchen
    = (Return (PyFloat 45), reporting_kitchen)
  /\ get_current_room reporting_kitchen
     = (Return (PyStr "kitchen"), reporting_kitchen)
  /\ update_sensors
       (mkAgent (mkCleaningState (PyFloat 100) (PyStr "living_room")
                   (PyList [PyStr "bedroom"]))
          reporting_kitchen)
     = (Return tt,
        mkAgent (mkCleaningState (PyFloat 45) (PyStr "kitchen")
                   (PyList [PyStr "bedroom"]))
          reporting_kitchen).
Proof.
  split; [reflexivity |]. split; [reflexivity |].
  apply (update_sensors_overwrites
           (mkAgent (mkCleaningState (PyFloat 100) (PyStr "living_room")
                       (PyList [PyStr "bedroom"]))
              reporting_kitchen)
           (PyFloat 45) (PyStr "kitchen") reporting_kitchen
           reporting_kitchen); reflexivity.
Defined.

(** C2, as the code has it.  A failing accessor's exception is what the
    refresh raises, unchanged (a [SensorError] when the collaborator
    raised one).  When [get_battery_level] fails, the state is
    untouched; when [get_current_room] fails after the battery reading
    [b] arrived, the current room and the cleaning path are untouched
    and the battery level already holds [b]. *)
Theorem update_sensors_failure
    {I : Type} `{IoTClient I} (self : AdvancedCleaningAgent I) :
  (forall e i1,
      get_battery_level (iot self) = (Raise e, i1) ->
      update_sensors self = (Raise e, mkAgent (state self) i1))
  /\ (forall b i1 e i2,
        get_battery_level (iot self) = (Return b, i1) ->
        get_current_room i1 = (Raise e, i2) ->
        update_sensors self
        = (Raise e,
           mkAgent (mkCleaningState b (current_room (state self))
                      (cleaning_path (state self))) i2)).
Proof.
  split.
  - intros e i1 Hb. rewrite update_sensors_cases, Hb. reflexivity.
  - intros b i1 e i2 Hb Hr. rewrite update_sensors_cases, Hb; simpl.
    rewrite Hr. reflexivity.
Qed.

Lemma update_sensors_failure_witness :
  update_sensors
    (mkAgent (mkCleaningState (PyFloat 100) (PyStr "living_room")
                (PyList []))
       (mkStub (Raise (mkExc SensorError ["no reading"])) (Return PyNone)))
  = (Raise (mkExc SensorError ["no reading"]),
     mkAgent (mkCleaningState (PyFloat 100) (PyStr "living_room")
                (PyList []))
       (mkStub (Raise (mkExc SensorError ["no reading"])) (Return PyNone)))
  /\ update_sensors
       (mkAgent (mkCleaningState (PyFloat 100) (PyStr "living_room")
                   (PyList []))
          room_unreachable)
     = (Raise (mkExc ConnectionError ["sensor unreachable"]),
        mkAgent (mkCleaningState (PyFloat 45) (PyStr "living_room")
                   (PyList []))
          room_unreachable).
Proof.
  split.
  - apply (proj1 (update_sensors_failure
                    (mkAgent (mkCleaningState (PyFloat 100)
                                (PyStr "living_room") (PyList []))
                       (mkStub (Raise (mkExc SensorError ["no reading"]))
                          (Return PyNone))))).
    reflexivity.
  - apply (proj2 (update_sensors_failure
                    (mkAgent (mkCleaningState (PyFloat 100)
                                (PyStr "living_room") (PyList []))
                       room_unreachable))
             (PyFloat 45) room_unreachable
             (mkExc ConnectionError ["sensor unreachable"])
             room_unreachable); reflexivity.
Defined.

(** C2, as stated, fails on a new agent whose collaborator gives the
    battery reading 45.0 and then fails on the room with a
    [ConnectionError]: the refresh raises that [ConnectionError], which
    an [except SensorError] does not catch, and the battery level has
    gone from 100.0 to 45.0. *)
Lemma update_sensors_not_atomic :
  exists e,
    fst (update_sensors (mkAgent (mkCleaningState (PyFloat 100)
                                    (PyStr "living_room") (PyList []))
                           room_unreachable))
      = Raise e
    /\ exc_class e = ConnectionError
    /\ catches SensorError e = false
    /\ battery_level
         (state (snd (update_sensors
                        (mkAgent (mkCleaningState (PyFloat 100)
                                    (PyStr "living_room") (PyList []))
                           room_unreachable))))
       = PyFloat 45
    /\ PyFloat.eq 45 100 = false.
Proof.
  exists (mkExc ConnectionError ["sensor unreachable"]). repeat split.
Qed.

End sensor_claims.

(** ** The claims on construction and assignment *)

Module model_claims.
Import pydantic samples.

Lemma Room_of_value_value (r : Room) : Room_of_value (Room_value r) = Some r.
Proof. destruct r; reflexivity. Qed.

Lemma Room_of_value_Some (s : string) (r : Room) :
  Room_of_value s = Some r -> s = Room_value r.
Proof.
  unfold Room_of_value. intros Hf. apply find_some in Hf.
  destruct Hf as [_ He]. apply String.eqb_eq in He. symmetry. exact He.
Qed.


Lemma validate_list_Room_members (p : list Room) :
  validate_list_Room (map PyRoom p) = Some p.
Proof.
  induction p as [| r p IH]; simpl; [reflexivity |].
  rewrite IH. reflexivity.
Qed.

(** With a valid room, the enum-typed construction returns and the room
    reads back. *)
Lemma domain_current_room_round_trip (b : float) (r : Room) (p : list Room) :
  exists s,
    domain.CleaningState_new (Some b) (Some (PyRoom r))
      (Some (map PyRoom p)) None = Return s
    /\ domain.current_room s = PyRoom r.
Proof.
  unfold domain.CleaningState_new; simpl.
  rewrite validate_list_Room_members. eexists. split; reflexivity.
Qed.

(** The enum-typed model has no defaults for its first three fields. *)
Example domain_CleaningState_no_arguments :
  domain.CleaningState_new None None None None
  = Raise (validation_error
             ["battery_level"; "current_room"; "cleaning_path"]).
Proof. reflexivity. Qed.




(** C7, as the code has it.  No range is enforced on [battery_level]:
    for every float [b], inside [0, 100] or not, both constructions
    return a state holding [b] (the enum-typed one given a valid room and
    path), and assigning [b] to the field stores it. *)
Theorem battery_level_unbounded (b : float) :
  (forall t p,
      agents.CleaningState_new (Some b) t p
      = Return (agents.mkCleaningState (PyFloat b)
                  (PyStr (agents.default t "living_room"))
                  (PyList (map PyStr (agents.default p [])))))
  /\ (forall r p,
        domain.CleaningState_new (Some b) (Some (PyRoom r))
          (Some (map PyRoom p)) None
        = Return (domain.mkCleaningState (PyFloat b) (PyRoom r)
                    (PyList (map PyRoom p)) (PyDict [])))
  /\ (forall s,
        agents.set_battery_level (PyFloat b) s
        = (Return tt,
           agents.mkCleaningState (PyFloat b) (agents.current_room s)
             (agents.cleaning_path s)))
  /\ (forall s,
        domain.set_battery_level (PyFloat b) s
        = (Return tt,
           domain.mkCleaningState (PyFloat b) (domain.current_room s)
             (domain.cleaning_path s) (domain.last_cleaned s))).
Proof.
  repeat split.
  intros r p. unfold domain.CleaningState_new; simpl.
  rewrite validate_list_Room_members. reflexivity.
Qed.

(** C7, as stated, fails at 150.0 and at -5.0, both outside [0, 100]:
    the constructions return, and so does the assignment. *)
Lemma battery_level_out_of_range_accepted :
  PyFloat.lt PyFloat.hundred 150 = true
  /\ PyFloat.lt (-5) 0 = true
  /\ agents.CleaningState_new (Some 150%float) None None
     = Return (agents.mkCleaningState (PyFloat 150) (PyStr "living_room")
                 (PyList []))
  /\ domain.CleaningState_new (Some (-5)%float) (Some (PyRoom KITCHEN))
       (Some []) None
     = Return (domain.mkCleaningState (PyFloat (-5)) (PyRoom KITCHEN)
                 (PyList []) (PyDict []))
  /\ agents.set_battery_level (PyFloat 150)
       (agents.mkCleaningState (PyFloat 100) (PyStr "living_room")
          (PyList []))
     = (Return tt,
        agents.mkCleaningState (PyFloat 150) (PyStr "living_room")
          (PyList [])).
Proof. repeat split. Qed.


End model_claims.

(** ** The claim on the metric record *)

Module logging_claims.
Import infrastructure.

(** C8.  One call of [log_metric(n, v)] hands the logger exactly one
    more record, at level INFO, whose message is "METRIC|", [n], "|" and
    the text of [v], and returns [None]; the records before it are kept. *)
Theorem log_metric_one_record
    (format_value : pyval -> string)
    (p : PerformanceLogger RecordingLogger) (n : string) (v : pyval) :
  log_metric format_value n v p
  = (Return tt,
     mkPerformanceLogger
       (logger p
          ++ [mkLogRecord INFO ("METRIC|" ++ n ++ "|" ++ format_value v)])%list)
  /\ List.length (logger (snd (log_metric format_value n v p)))
     = S (List.length (logger p)).
Proof.
  split; [reflexivity |].
  unfold log_metric, on_logger; simpl.
  rewrite List.length_app. simpl. lia.
Qed.

(** Whatever the logger, [log_metric] is one call of its [info]. *)
Lemma log_metric_calls_info_once
    {L : Type} `{Logger L} (format_value : pyval -> string)
    (p : PerformanceLogger L) (n : string) (v : pyval) :
  log_metric format_value n v p
  = on_logger (info ("METRIC|" ++ n ++ "|" ++ format_value v)) p.
Proof. reflexivity. Qed.

End logging_claims.

(* ================================================================== *)
(** * Further properties *)

(** ** The order of floats *)

Lemma SFleb_ltb_trans (x y z : spec_float) :
  SFleb x y = true -> SFltb y z = true -> SFltb x z = true.
Proof.
  unfold SFleb, SFltb.
  destruct x as [sx | sx | | sx mx ex], y as [sy | sy | | sy my ey],
           z as [sz | sz | | sz mz ez]; simpl;
    try discriminate; try (intros _ Hyz; exact Hyz);
    try (destruct sx; discriminate);
    try (destruct sx, sy, sz; simpl;
         (discriminate || reflexivity || (intros Hxy; exact Hxy) || idtac)).
  all: try (destruct sx, sy; simpl; intros;
            discriminate || reflexivity || idtac).
  all: change (Pos.compare_cont Eq mx my) with (Pos.compare mx my);
    change (Pos.compare_cont Eq my mz) with (Pos.compare my mz);
    change (Pos.compare_cont Eq mx mz) with (Pos.compare mx mz);
    destruct (Z.compare_spec ex ey) as [E1 | E1 | E1]; try discriminate;
    destruct (Z.compare_spec ey ez) as [E2 | E2 | E2]; try discriminate;
    destruct (Z.compare_spec ex ez) as [E3 | E3 | E3]; try lia;
    destruct (Pos.compare_spec mx my) as [M1 | M1 | M1]; simpl;
      try discriminate;
    destruct (Pos.compare_spec my mz) as [M2 | M2 | M2]; simpl;
      try discriminate;
    destruct (Pos.compare_spec mx mz) as [M3 | M3 | M3]; simpl;
      try reflexivity; intros _ _; lia.
Qed.

(** [a <= b] and [b < c] give [a < c]. *)
Lemma ge_lt_trans (a b c : float) :
  PyFloat.ge b a = true -> PyFloat.lt b c = true -> PyFloat.lt a c = true.
Proof.
  unfold PyFloat.ge, PyFloat.lt. rewrite leb_spec, !ltb_spec.
  apply SFleb_ltb_trans.
Qed.

(** ** More on the battery guard *)

Module guard_facts.
Import agents guard samples.

(** X1.  The guard is a pure check on every agent, whatever the battery
    level holds and whether it returns or raises: the agent after the call
    is the agent before it, so a second call gives what the first gave. *)
Theorem check_battery_pure
    {I : Type} `{IoTClient I} (self : AdvancedCleaningAgent I) :
  snd (check_battery self) = self
  /\ check_battery (snd (check_battery self)) = check_battery self.
Proof.
  assert (Hf : snd (check_battery self) = self).
  { rewrite check_battery_cases.
    destruct (py_lt_int (battery_level (state self)) 20) as [[|] | e];
      reflexivity. }
  split; [exact Hf | rewrite Hf; reflexivity].
Qed.

(** X2.  On an int battery level [z] the guard raises the agent-module
    [LowBatteryError] exactly when [z < 20] and returns exactly when
    [z >= 20]. *)
Theorem check_battery_int
    {I : Type} `{IoTClient I} (self : AdvancedCleaningAgent I) (z : Z) :
  battery_level (state self) = PyInt z ->
  (raises (fst (check_battery self)) agents_LowBatteryError <-> (z < 20)%Z)
  /\ (succeeds (fst (check_battery self)) <-> (20 <= z)%Z).
Proof.
  intros Hb. rewrite check_battery_cases, Hb. unfold py_lt_int.
  destruct (Z.ltb_spec z 20) as [Hlt | Hge]; split; split.
  - intros _. exact Hlt.
  - intros _. exists (LowBatteryError_new "Returning to dock").
    split; reflexivity.
  - intros [v Hv]. discriminate Hv.
  - intros Hge. lia.
  - intros [e [He _]]. discriminate He.
  - intros Hlt. lia.
  - intros _. exact Hge.
  - intros _. exists tt. reflexivity.
Qed.

Lemma check_battery_int_witness :
  battery_level (state (agent_with_battery (PyInt 19))) = PyInt 19
  /\ raises (fst (check_battery (agent_with_battery (PyInt 19))))
       agents_LowBatteryError.
Proof.
  split; [reflexivity |].
  destruct (check_battery_int (agent_with_battery (PyInt 19)) 19 eq_refl)
    as [[_ Hr] _].
  apply Hr. lia.
Defined.

(** X3.  A battery level that is no number (text, a [Room], [None], a list,
    a dict) makes the guard raise the interpreter's [TypeError], never a
    [LowBatteryError], and the guard does not return. *)
Theorem check_battery_not_a_number
    {I : Type} `{IoTClient I} (self : AdvancedCleaningAgent I) :
  is_number (battery_level (state self)) = false ->
  raises (fst (check_battery self)) TypeError
  /\ ~ raises (fst (check_battery self)) agents_LowBatteryError
  /\ ~ succeeds (fst (check_battery self)).
Proof.
  intros Hn. rewrite check_battery_cases.
  destruct (battery_level (state self)); try discriminate Hn; simpl;
    (split; [eexists; split; reflexivity |]);
    (split; [intros [e [He Hc]]; injection He as <-; discriminate Hc
            | intros [v Hv]; discriminate Hv]).
Qed.

Lemma check_battery_not_a_number_witness :
  is_number (battery_level (state (agent_with_battery PyNone))) = false
  /\ raises (fst (check_battery (agent_with_battery PyNone))) TypeError.
Proof.
  split; [reflexivity |].
  apply (check_battery_not_a_number (agent_with_battery PyNone)).
  reflexivity.
Defined.

(** X4.  The guard is monotone in the battery level: when it returns on a
    float level [b1], it returns on every float level [b2 >= b1]. *)
Theorem check_battery_monotone
    {I J : Type} `{IoTClient I} `{IoTClient J}
    (s1 : AdvancedCleaningAgent I) (s2 : AdvancedCleaningAgent J)
    (b1 b2 : float) :
  battery_level (state s1) = PyFloat b1 ->
  battery_level (state s2) = PyFloat b2 ->
  PyFloat.ge b2 b1 = true ->
  succeeds (fst (check_battery s1)) ->
  succeeds (fst (check_battery s2)).
Proof.
  intros H1 H2 Hge. 
  rewrite (check_battery_float s1 b1 H1), (check_battery_float s2 b2 H2).
  destruct (PyFloat.lt b2 PyFloat.twenty) eqn:Hlt2.
  - rewrite (ge_lt_trans b1 b2 PyFloat.twenty Hge Hlt2).
    intros [v Hv]. discriminate Hv.
  - intros _. exists tt. reflexivity.
Qed.

Lemma check_battery_monotone_witness :
  PyFloat.ge 80 20 = true
  /\ succeeds (fst (check_battery (agent_with_battery (PyFloat 80)))).
Proof.
  split; [reflexivity |].
  apply (check_battery_monotone
           (agent_with_battery (PyFloat 20)) (agent_with_battery (PyFloat 80))
           20 80 eq_refl eq_refl eq_refl).
  exists tt. reflexivity.
Defined.

End guard_facts.

(** ** More on the sensor refresh *)

Module refresh_facts.
Import agents guard samples sensor_claims.

(** X5.  The refresh returns exactly when both accessors answer, the room
    accessor being asked on the collaborator as the battery accessor left
    it. *)
Theorem update_sensors_succeeds_iff
    {I : Type} `{IoTClient I} (self : AdvancedCleaningAgent I) :
  succeeds (fst (update_sensors self))
  <-> exists b i1 r i2,
        get_battery_level (iot self) = (Return b, i1)
        /\ get_current_room i1 = (Return r, i2).
Proof.
  rewrite update_sensors_cases. split.
  - destruct (get_battery_level (iot self)) as [[b | e] i1] eqn:Hb; simpl.
    + destruct (get_current_room i1) as [[r | e] i2] eqn:Hr; simpl.
      * intros _. exists b, i1, r, i2. split; [reflexivity | exact Hr].
      * intros [v Hv]. discriminate Hv.
    + intros [v Hv]. discriminate Hv.
  - intros [b [i1 [r [i2 [Hb Hr]]]]]. rewrite Hb; simpl. rewrite Hr; simpl.
    exists tt. reflexivity.
Qed.

(** X6.  Whatever the accessors do (answer or raise), the refresh leaves
    [cleaning_path] as it was. *)
Theorem update_sensors_keeps_cleaning_path
    {I : Type} `{IoTClient I} (self : AdvancedCleaningAgent I) :
  cleaning_path (state (snd (update_sensors self)))
  = cleaning_path (state self).
Proof.
  rewrite update_sensors_cases.
  destruct (get_battery_level (iot self)) as [[b | e] i1]; simpl;
    [| reflexivity].
  destruct (get_current_room i1) as [[r | e] i2]; reflexivity.
Qed.

(** X7.  A refresh followed by the guard: when the battery accessor answers
    the float [b] and the room accessor answers, the guard raises
    [LowBatteryError] if [b < 20] and returns otherwise, whatever the
    battery level was before; in both cases the state keeps the new
    readings. *)
Theorem refresh_then_guard
    {I : Type} `{IoTClient I} (self : AdvancedCleaningAgent I)
    (b : float) (r : pyval) (i1 i2 : I) :
  get_battery_level (iot self) = (Return (PyFloat b), i1) ->
  get_current_room i1 = (Return r, i2) ->
  (update_sensors ;;; check_battery) self
  = (if PyFloat.lt b PyFloat.twenty
     then Raise (LowBatteryError_new "Returning to dock")
     else Return tt,
     mkAgent (mkCleaningState (PyFloat b) r (cleaning_path (state self))) i2).
Proof.
  intros Hb Hr. unfold bind at 1.
  rewrite update_sensors_cases, Hb; simpl. rewrite Hr; simpl.
  rewrite (check_battery_float
             (mkAgent (mkCleaningState (PyFloat b) r
                         (cleaning_path (state self))) i2) b eq_refl).
  destruct (PyFloat.lt b PyFloat.twenty); reflexivity.
Qed.

Lemma refresh_then_guard_witness :
  (update_sensors ;;; check_battery)
    (mkAgent (mkCleaningState (PyFloat 5) (PyStr "living_room") (PyList []))
       reporting_kitchen)
  = (Return tt,
     mkAgent (mkCleaningState (PyFloat 45) (PyStr "kitchen") (PyList []))
       reporting_kitchen).
Proof.
  apply (refresh_then_guard
           (mkAgent (mkCleaningState (PyFloat 5) (PyStr "living_room")
                       (PyList []))
              reporting_kitchen)
           45 (PyStr "kitchen") reporting_kitchen reporting_kitchen);
    reflexivity.
Defined.

(** X8.  The refresh validates nothing: a battery reading that is no
    number is stored as it is and the refresh returns; the guard that
    follows then raises [TypeError]. *)
Theorem refresh_stores_unvalidated_reading
    {I : Type} `{IoTClient I} (self : AdvancedCleaningAgent I)
    (b r : pyval) (i1 i2 : I) :
  get_battery_level (iot self) = (Return b, i1) ->
  get_current_room i1 = (Return r, i2) ->
  is_number b = false ->
  fst (update_sensors self) = Return tt
  /\ battery_level (state (snd (update_sensors self))) = b
  /\ raises (fst ((update_sensors ;;; check_battery) self)) TypeError.
Proof.
  intros Hb Hr Hn. unfold bind at 1.
  rewrite update_sensors_cases, Hb; simpl. rewrite Hr; simpl.
  split; [reflexivity |]. split; [reflexivity |].
  rewrite check_battery_cases; simpl.
  destruct b; try discriminate Hn; simpl; eexists; split; reflexivity.
Qed.

Lemma refresh_stores_unvalidated_reading_witness :
  is_number (PyStr "n/a") = false
  /\ raises
       (fst ((update_sensors ;;; check_battery)
               (mkAgent (mkCleaningState (PyFloat 100) (PyStr "living_room")
                           (PyList []))
                  (mkStub (Return (PyStr "n/a")) (Return (PyStr "kitchen"))))))
       TypeError.
Proof.
  split; [reflexivity |].
  apply (refresh_stores_unvalidated_reading
           (mkAgent (mkCleaningState (PyFloat 100) (PyStr "living_room")
                       (PyList []))
              (mkStub (Return (PyStr "n/a")) (Return (PyStr "kitchen"))))
           (PyStr "n/a") (PyStr "kitchen")
           (mkStub (Return (PyStr "n/a")) (Return (PyStr "kitchen")))
           (mkStub (Return (PyStr "n/a")) (Return (PyStr "kitchen"))));
    reflexivity.
Defined.

(** X9.  With a collaborator whose answers are stable (each accessor
    answers and leaves the collaborator as it is), refreshing twice is
    refreshing once. *)
Theorem update_sensors_idempotent
    {I : Type} `{IoTClient I} (self : AdvancedCleaningAgent I)
    (b r : pyval) :
  get_battery_level (iot self) = (Return b, iot self) ->
  get_current_room (iot self) = (Return r, iot self) ->
  update_sensors (snd (update_sensors self)) = update_sensors self.
Proof.
  intros Hb Hr.
  assert (H1 : update_sensors self
               = (Return tt,
                  mkAgent (mkCleaningState b r (cleaning_path (state self)))
                    (iot self))).
  { rewrite update_sensors_cases, Hb; simpl. rewrite Hr; reflexivity. }
  rewrite H1; simpl.
  rewrite update_sensors_cases; simpl. rewrite Hb; simpl. rewrite Hr.
  reflexivity.
Qed.

Lemma update_sensors_idempotent_witness :
  update_sensors
    (snd (update_sensors
            (mkAgent (mkCleaningState (PyFloat 100) (PyStr "living_room")
                        (PyList []))
               reporting_kitchen)))
  = update_sensors
      (mkAgent (mkCleaningState (PyFloat 100) (PyStr "living_room")
                  (PyList []))
         reporting_kitchen).
Proof.
  apply (update_sensors_idempotent
           (mkAgent (mkCleaningState (PyFloat 100) (PyStr "living_room")
                       (PyList []))
              reporting_kitchen)
           (PyFloat 45) (PyStr "kitchen")); reflexivity.
Defined.

(** X10.  An [except SmartHomeError] around the refresh handles a
    [SensorError] raised by either accessor, and the handler runs on the
    agent as the failure left it: untouched when the battery accessor
    failed, with the new battery level when the room accessor failed. *)
Theorem refresh_sensor_error_handled
    {I : Type} `{IoTClient I} (self : AdvancedCleaningAgent I)
    (handler : exc -> M (AdvancedCleaningAgent I) unit) (e : exc) :
  exc_class e = SensorError ->
  (forall i1,
      get_battery_level (iot self) = (Raise e, i1) ->
      try_except update_sensors SmartHomeError handler self
      = handler e (mkAgent (state self) i1))
  /\ (forall b i1 i2,
        get_battery_level (iot self) = (Return b, i1) ->
        get_current_room i1 = (Raise e, i2) ->
        try_except update_sensors SmartHomeError handler self
        = handler e
            (mkAgent (mkCleaningState b (current_room (state self))
                        (cleaning_path (state self))) i2)).
Proof.
  intros He.
  assert (Hc : catches SmartHomeError e = true).
  { unfold catches. rewrite He. reflexivity. }
  split.
  - intros i1 Hb. unfold try_except.
    rewrite update_sensors_cases, Hb, Hc. reflexivity.
  - intros b i1 i2 Hb Hr. unfold try_except.
    rewrite update_sensors_cases, Hb; simpl. rewrite Hr, Hc. reflexivity.
Qed.

Lemma refresh_sensor_error_handled_witness :
  try_except update_sensors SmartHomeError (fun _ => ret tt)
    (mkAgent (mkCleaningState (PyFloat 100) (PyStr "living_room") (PyList []))
       (mkStub (Raise (mkExc SensorError ["no reading"])) (Return PyNone)))
  = (Return tt,
     mkAgent (mkCleaningState (PyFloat 100) (PyStr "living_room") (PyList []))
       (mkStub (Raise (mkExc SensorError ["no reading"])) (Return PyNone))).
Proof.
  apply (proj1 (refresh_sensor_error_handled
                  (mkAgent (mkCleaningState (PyFloat 100)
                              (PyStr "living_room") (PyList []))
                     (mkStub (Raise (mkExc SensorError ["no reading"]))
                        (Return PyNone)))
                  (fun _ => ret tt) (mkExc SensorError ["no reading"])
                  eq_refl)).
  reflexivity.
Defined.

End refresh_facts.

(** ** The exception hierarchy *)

Module exception_facts.

(** X11.  Among the classes, [except SmartHomeError] catches exactly
    [SmartHomeError] and the three classes derived from it in
    [domain/exceptions.py]; and those three are unrelated to each other:
    a handler for one catches another only if it is the same class. *)
Theorem SmartHomeError_scope :
  (forall c,
      issubclass c SmartHomeError = true
      <-> In c [SmartHomeError; domain_LowBatteryError; SensorError;
                NavigationError])
  /\ (forall c d,
        In c [domain_LowBatteryError; SensorError; NavigationError] ->
        In d [domain_LowBatteryError; SensorError; NavigationError] ->
        (issubclass c d = true <-> c = d)).
Proof.
  split.
  - intros c. split.
    + destruct c; simpl; intros Hs; try discriminate Hs; auto.
    + simpl. intros [<- | [<- | [<- | [<- | []]]]]; reflexivity.
  - simpl. intros c d [<- | [<- | [<- | []]]] [<- | [<- | [<- | []]]];
      split; intros Hs; try reflexivity; try discriminate Hs.
Qed.

(** X12.  A handler for a base class catches whatever a handler for a
    class derived from it catches. *)
Theorem catches_widens (c d : ExcClass) (e : exc) :
  issubclass c d = true -> catches c e = true -> catches d e = true.
Proof.
  unfold catches. destruct (exc_class e), c; simpl; intros Hcd Hec;
    try discriminate Hec; destruct d; simpl in *;
    try reflexivity; discriminate Hcd.
Qed.

Lemma catches_widens_witness :
  catches SmartHomeError (mkExc SensorError ["no reading"]) = true.
Proof.
  apply (catches_widens SensorError SmartHomeError
           (mkExc SensorError ["no reading"])); reflexivity.
Defined.

(** X13.  The domain-module [LowBatteryError] carries the message it was
    given, or "Battery level below 20%" when given none, as its text; it is
    caught by [except SmartHomeError] and not by an [except] of the
    agent-module [LowBatteryError], whose instances in turn it does not
    catch. *)
Theorem domain_LowBatteryError_message (message : option string) :
  exc_str (domain_LowBatteryError_new message)
  = Some (match message with
          | Some m => m
          | None => "Battery level below 20%"
          end)
  /\ catches SmartHomeError (domain_LowBatteryError_new message) = true
  /\ catches agents_LowBatteryError (domain_LowBatteryError_new message)
     = false
  /\ (forall m,
        catches domain_LowBatteryError (agents.LowBatteryError_new m)
        = false).
Proof. destruct message; repeat split. Qed.

End exception_facts.

(** ** More on the models *)

Module model_facts.
Import pydantic model_claims.

(** X14.  Looking a text up among the rooms and taking a room's value are
    inverse: [Room(s)] is the member [r] exactly when [s] is the value of
    [r]; so distinct members have distinct values. *)
Theorem Room_lookup_inverse (s : string) (r : Room) :
  Room_of_value s = Some r <-> s = Room_value r.
Proof.
  split.
  - apply Room_of_value_Some.
  - intros ->. apply Room_of_value_value.
Qed.

Lemma validate_list_Room_values (p : list Room) :
  validate_list_Room (map (fun r => PyStr (Room_value r)) p) = Some p.
Proof.
  induction p as [| r p IH]; simpl; [reflexivity |].
  rewrite Room_of_value_value, IH. reflexivity.
Qed.

(** X15.  The enum-typed construction turns text values into members:
    given the value of a room as [current_room] and the values of rooms as
    [cleaning_path], it returns the state holding those members, the path
    in the same order. *)
Theorem domain_construction_coerces_values
    (b : float) (r : Room) (p : list Room) :
  domain.CleaningState_new (Some b) (Some (PyStr (Room_value r)))
    (Some (map (fun x => PyStr (Room_value x)) p)) None
  = Return (domain.mkCleaningState (PyFloat b) (PyRoom r)
              (PyList (map PyRoom p)) (PyDict [])).
Proof.
  unfold domain.CleaningState_new; simpl.
  rewrite Room_of_value_value, validate_list_Room_values. reflexivity.
Qed.




End model_facts.

(** ** More on the metric records *)

Module logging_facts.
Import infrastructure.

(** X17.  Logging a series of metrics one after the other appends one
    INFO record per metric, in the order of the calls, after the records
    the logger already held, and returns. *)
Theorem log_metrics_in_order
    (format_value : pyval -> string)
    (metrics : list (string * pyval))
    (p : PerformanceLogger RecordingLogger) :
  for_each metrics (fun nv => log_metric format_value (fst nv) (snd nv)) p
  = (Return tt,
     mkPerformanceLogger
       (logger p
          ++ map (fun nv =>
                    mkLogRecord INFO
                      ("METRIC|" ++ fst nv ++ "|" ++ format_value (snd nv)))
               metrics)%list).
Proof.
  revert p. induction metrics as [| nv metrics IH]; intros p; simpl.
  - rewrite app_nil_r. destruct p; reflexivity.
  - unfold bind. unfold log_metric at 1, on_logger; simpl.
    rewrite IH; simpl. rewrite <- app_assoc. reflexivity.
Qed.

Lemma pipe_free_split (n n' t t' : string) :
  contains_pipe n = false -> contains_pipe n' = false ->
  n ++ "|" ++ t = n' ++ "|" ++ t' -> n = n' /\ t = t'.
Proof.
  revert n'. induction n as [| c n IH]; intros [| c' n'] Hn Hn' Heq;
    simpl in *.
  - injection Heq as ->. split; reflexivity.
  - injection Heq as <- _. discriminate Hn'.
  - injection Heq as -> _. discriminate Hn.
  - injection Heq as -> Heq.
    apply orb_false_elim in Hn. apply orb_false_elim in Hn'.
    destruct (IH n' (proj2 Hn) (proj2 Hn') Heq) as [-> ->].
    split; reflexivity.
Qed.

(** X18.  The metric line is unambiguous for names without "|": two calls
    with such names that leave the same logger in the same state had the
    same name and the same value text. *)
Theorem metric_message_injective
    (format_value : pyval -> string) (n n' : string) (v v' : pyval)
    (p : PerformanceLogger RecordingLogger) :
  contains_pipe n = false -> contains_pipe n' = false ->
  snd (log_metric format_value n v p) = snd (log_metric format_value n' v' p)
  -> n = n' /\ format_value v = format_value v'.
Proof.
  intros Hn Hn' Heq. unfold log_metric, on_logger in Heq; simpl in Heq.
  injection Heq as Heq. apply app_inv_head in Heq. injection Heq as Heq.
  apply (pipe_free_split n n' _ _ Hn Hn' Heq).
Qed.

Lemma metric_message_injective_witness :
  contains_pipe "cycle_time" = false
  /\ "cycle_time" = "cycle_time" /\ "1.5" = "1.5".
Proof.
  split; [reflexivity |].
  apply (metric_message_injective (fun _ => "1.5") "cycle_time" "cycle_time"
           (PyFloat 1.5) (PyFloat 1.5) (mkPerformanceLogger []));
    reflexivity.
Defined.

(** With a "|" in the name the line is ambiguous: the name "a|b" with the
    value text "c" and the name "a" with the value text "b|c" give the
    same message. *)
Example metric_message_ambiguous :
  log_metric (fun _ => "c") "a|b" PyNone (mkPerformanceLogger [])
  = log_metric (fun _ => "b|c") "a" PyNone (mkPerformanceLogger []).
Proof. reflexivity. Qed.

End logging_facts.
